(** * felafax trainer engine: a shallow embedding of [trainer.py]

    The development follows the source file top to bottom:
    - the numeric interface the code consumes from JAX ([Jax]), with an
      IEEE binary32 instance built on the Standard Library's [SpecFloat];
    - [_cross_entropy_loss_and_accuracy];
    - batch tensors, the object store, [_preprocess_batch];
    - [get_mesh];
    - [Trainer.forward], [Trainer.training_step], [Trainer.train]. *)

From Stdlib Require Import ZArith List Ascii String.
From Stdlib Require Import Floats.SpecFloat.
From stdpp Require Import base option list gmap strings pretty fin_maps.

Local Open Scope Z_scope.

(** ** The numeric interface

    [F] is the type of float32 scalars.  The operations are the ones the
    source applies to them; [log_softmax] and [argmax] are JAX library
    functions acting on one row of the vocabulary axis. *)

Class Jax (F : Type) := {
  jax_enable_x64 : bool;
  f32_zero : F;
  f32_one : F;
  f32_nan : F;
  f32_eps : F;                       (* the literal 1e-10 as a float32 *)
  f32_add : F → F → F;
  f32_div : F → F → F;
  f32_neg : F → F;
  f32_maximum : F → F → F;
  f32_gt : F → F → bool;
  f32_isfinite : F → bool;
  f32_of_Z : Z → F;                  (* integer to float32 conversion *)
  log_softmax : list F → list F;     (* jax.nn.log_softmax, one row *)
  argmax : list F → Z                (* jnp.argmax, one row *)
}.


(** ** IEEE binary32 *)

Module Binary32.

Definition prec : Z := 24.
Definition emax : Z := 128.

Definition zero : spec_float := S754_zero false.
Definition one : spec_float := SFone prec emax.
Definition add := SFadd prec emax.
Definition div := SFdiv prec emax.
Definition neg := SFopp.
Definition of_Z (z : Z) : spec_float := binary_normalize prec emax z 0 false.

(** 1e-10 rounded to nearest: 1 / 10^10, both operands being exact. *)
Definition eps : spec_float := div one (of_Z (10 ^ 10)).

Definition gt (x y : spec_float) : bool := SFltb y x.

Definition isnan (x : spec_float) : bool :=
  match x with S754_nan => true | _ => false end.

(** [jnp.maximum] propagates NaN. *)
Definition maximum (x y : spec_float) : spec_float :=
  if isnan x || isnan y then S754_nan
  else if SFltb x y then y else x.

Definition isfinite (x : spec_float) : bool :=
  match x with
  | S754_zero _ | S754_finite _ _ _ => true
  | S754_infinity _ | S754_nan => false
  end.

(** First index of the largest entry, a NaN counting as largest. *)
Fixpoint argmax_from (best : spec_float) (besti i : Z)
    (l : list spec_float) : Z :=
  match l with
  | [] => besti
  | x :: l' =>
      if isnan best then besti
      else if isnan x || SFltb best x
           then argmax_from x i (i + 1) l'
           else argmax_from best besti (i + 1) l'
  end.

Definition argmax (l : list spec_float) : Z :=
  match l with
  | [] => 0
  | x :: l' => argmax_from x 0 1 l'
  end.

Definition jax (x64 : bool) (lsm : list spec_float → list spec_float)
    : Jax spec_float :=
  Build_Jax spec_float x64 zero one S754_nan eps add div neg maximum gt
            isfinite of_Z lsm argmax.

(** [log_softmax] of a one-entry row [x]: x - logsumexp [x] = x - x. *)
Definition log_softmax_1 (row : list spec_float) : list spec_float :=
  map (λ x, SFsub prec emax x x) row.

End Binary32.

(** ** Tensor helpers (rank 2 and 3 as nested lists) *)

Section Numerics.
Context {F : Type} `{Jax F}.

(** [jnp.sum] over one row. *)
Definition fsum (xs : list F) : F := fold_left f32_add xs f32_zero.

(** [jnp.mean] over a vector: the sum divided by the element count. *)
Definition fmean (xs : list F) : F :=
  f32_div (fsum xs) (f32_of_Z (Z.of_nat (length xs))).

(** [jnp.sum] of a boolean row: the number of [True] entries. *)
Definition bsum (bs : list bool) : Z :=
  fold_left (λ acc (b : bool), acc + Z.b2z b) bs 0.

Definition shape2 {A} (t : list (list A)) : nat * nat :=
  (length t, match t with r :: _ => length r | [] => 0%nat end).

(** [jnp.ones(shape)] for a rank-2 shape, already as float32. *)
Definition jnp_ones (sh : nat * nat) : list (list F) :=
  replicate (fst sh) (replicate (snd sh) f32_one).

(** One lookup of [jnp.take_along_axis] on the last axis: a negative
    index counts from the end, an index out of bounds reads the fill
    value NaN. *)
Definition take1 (row : list F) (i : Z) : F :=
  let n := Z.of_nat (length row) in
  let j := if i <? 0 then i + n else i in
  if (0 <=? j) && (j <? n) then nth (Z.to_nat j) row f32_nan
  else f32_nan.

(** [jnp.where(mask > 0.0, x, other)], element by element. *)
Definition where_pos {A} (mask : list (list F)) (x : list (list A))
    (other : A) : list (list A) :=
  zip_with (zip_with (λ m v, if f32_gt m f32_zero then v else other))
           mask x.

(** *** [_cross_entropy_loss_and_accuracy] *)

(** The first two statements: the default mask, and the cast of the mask
    to float32. *)
Definition float_mask (tokens : list (list Z))
    (mask : option (list (list Z))) : list (list F) :=
  match mask with
  | None => jnp_ones (shape2 tokens)
  | Some m => map (map f32_of_Z) m            (* astype(float32) *)
  end.

(** The two vectors, one entry per sequence, of which the function
    returns the means. *)
Definition sequence_terms
    (logits : list (list (list F))) (tokens : list (list Z))
    (mask : option (list (list Z))) : list F * list F :=
  let mask := float_mask tokens mask in
  let valid_text_length :=
    map (λ row, f32_maximum (fsum row) f32_eps) mask in
  let token_log_prob :=
    zip_with (zip_with take1) (map (map log_softmax) logits) tokens in
  let token_log_prob := where_pos mask token_log_prob f32_zero in
  let correct :=
    where_pos mask
      (zip_with (zip_with (λ row t, argmax row =? t)) logits tokens)
      false in
  (zip_with f32_div (map fsum token_log_prob) valid_text_length,
   zip_with (λ c v, f32_div (f32_of_Z c) v) (map bsum correct)
            valid_text_length).

Definition _cross_entropy_loss_and_accuracy
    (logits : list (list (list F))) (tokens : list (list Z))
    (mask : option (list (list Z))) : F * F :=
  let '(loss_terms, accuracy_terms) := sequence_terms logits tokens mask in
  let loss := f32_neg (fmean loss_terms) in
  let accuracy := fmean accuracy_terms in
  (loss, accuracy).

End Numerics.

(** ** Exceptions *)

Inductive exn :=
  | KeyError (key : string)
  | IndexError
  | AttributeError (attr : string)
  | ValueError (msg : string)
  | AssertionError (msg : string)
  | UnboundLocalError (name : string)
  | ReferenceError.            (* a dangling object reference; Python has none *)

Inductive result (A : Type) :=
  | Ok (a : A)
  | Raise (e : exn).
Arguments Ok {A} a.
Arguments Raise {A} e.

#[export] Instance result_ret : MRet result := λ A a, Ok a.
#[export] Instance result_bind : MBind result := λ A B f m,
  match m with
  | Ok a => f a
  | Raise e => Raise e
  end.
#[export] Instance result_fmap : FMap result := λ A B f m,
  match m with
  | Ok a => Ok (f a)
  | Raise e => Raise e
  end.

(** ** Batch tensors

    A batch holds integer tensors (token ids, labels, masks).  An array is
    its dtype, its shape and its elements in row-major order; a batch value
    is such an array held either by PyTorch or by JAX. *)

Inductive dtype := dt_bool | dt_int32 | dt_int64.

Record ndarray := NdArray {
  nd_dtype : dtype;
  nd_shape : list nat;
  nd_data : list Z
}.

Inductive tensor :=
  | TorchTensor (a : ndarray)
  | JaxArray (a : ndarray).

Definition wrap (bits : Z) (z : Z) : Z :=
  (z + 2 ^ (bits - 1)) mod 2 ^ bits - 2 ^ (bits - 1).

Definition cast_to (dt : dtype) (z : Z) : Z :=
  match dt with
  | dt_bool => if z =? 0 then 0 else 1
  | dt_int32 => wrap 32 z
  | dt_int64 => wrap 64 z
  end.

(** [a.astype(dt)] *)
Definition astype (a : ndarray) (dt : dtype) : ndarray :=
  {| nd_dtype := dt; nd_shape := nd_shape a;
     nd_data := map (cast_to dt) (nd_data a) |}.

(** [count] consecutive blocks of [size] elements. *)
Definition blocks {A} (count size : nat) (data : list A) : list (list A) :=
  map (λ i, take size (drop (i * size) data)) (seq 0 count).

Definition product (l : list nat) : nat := fold_right Nat.mul 1%nat l.

(** The rows along the last axis; for shape (batch, seq) the [batch]
    sequences. *)
Definition rows (a : ndarray) : list (list Z) :=
  match reverse (nd_shape a) with
  | [] => []
  | s :: lead => blocks (product lead) s (nd_data a)
  end.

(** [a[..., 1:]] *)
Definition slice_from1 (a : ndarray) : result ndarray :=
  match reverse (nd_shape a) with
  | [] => Raise IndexError
  | s :: lead =>
      Ok {| nd_dtype := nd_dtype a;
            nd_shape := reverse lead ++ [(s - 1)%nat];
            nd_data := mjoin (map (drop 1) (rows a)) |}
  end.

(** [l[:-1]] *)
Definition drop_last {A} (l : list A) : list A := take (length l - 1) l.

(** [a[None, :]] *)
Definition expand_dims0 (a : ndarray) : ndarray :=
  {| nd_dtype := nd_dtype a; nd_shape := 1%nat :: nd_shape a;
     nd_data := nd_data a |}.

(** [jnp.repeat(a, repeats, axis=0)]: every block along axis 0 is repeated
    [repeats] times in place. *)
Definition jnp_repeat0 (a : ndarray) (repeats : nat) : ndarray :=
  match nd_shape a with
  | [] => a
  | n :: rest =>
      {| nd_dtype := nd_dtype a;
         nd_shape := (n * repeats)%nat :: rest;
         nd_data :=
           mjoin (mjoin (map (replicate repeats)
                             (blocks n (product rest) (nd_data a)))) |}
  end.

Definition tensor_array (v : tensor) : ndarray :=
  match v with TorchTensor a | JaxArray a => a end.

Definition is_jax_array (v : tensor) : bool :=
  match v with JaxArray _ => true | TorchTensor _ => false end.

(** [v.astype(dt)]; a PyTorch tensor has no such method. *)
Definition tensor_astype (v : tensor) (dt : dtype) : result tensor :=
  match v with
  | JaxArray a => Ok (JaxArray (astype a dt))
  | TorchTensor _ => Raise (AttributeError "astype")
  end.

(** [v.shape[i]] *)
Definition shape_at (v : tensor) (i : nat) : result nat :=
  match nd_shape (tensor_array v) !! i with
  | Some n => Ok n
  | None => Raise IndexError
  end.

Section JaxArrays.
Context {F : Type} `{Jax F}.

(** JAX stores 64-bit integers as 32-bit ones unless x64 is enabled. *)
Definition canonical_dtype (dt : dtype) : dtype :=
  match dt with
  | dt_int64 => if jax_enable_x64 then dt_int64 else dt_int32
  | _ => dt
  end.

(** [jax.numpy.array(a)] for a NumPy array [a]. *)
Definition jnp_array (a : ndarray) : ndarray :=
  astype a (canonical_dtype (nd_dtype a)).

(** [jnp.arange(n)] *)
Definition jnp_arange (n : nat) : ndarray :=
  {| nd_dtype := canonical_dtype dt_int64; nd_shape := [n];
     nd_data := map Z.of_nat (seq 0 n) |}.

(** [v if isinstance(v, jax.Array) else jax.numpy.array(v.numpy())] *)
Definition to_jax (v : tensor) : tensor :=
  match v with
  | JaxArray a => JaxArray a
  | TorchTensor a => JaxArray (jnp_array a)
  end.
End JaxArrays.

(** ** Device mesh *)

Record Mesh := {
  mesh_shape : list Z;            (* the shape of the device array *)
  axis_names : list string
}.

(** [mesh_utils.create_device_mesh]: the device array, kept as its shape. *)
Definition create_device_mesh (mesh_shape : list Z) : list Z := mesh_shape.

Record Checkpointer := { checkpoint_dir : string }.

Record TrainerConfig := {
  model_name : string;
  param_dtype : string;
  output_dtype : string;
  num_epochs : Z;
  num_steps : option Z;           (* [None] when unset *)
  num_tpus : Z;
  base_dir : string
}.

(** The step cap [num_steps or float("inf")]. *)
Inductive bound := Finite (z : Z) | Infinity.

Definition max_steps_of (num_steps : option Z) : bound :=
  match num_steps with
  | None => Infinity
  | Some z => if z =? 0 then Infinity else Finite z
  end.

(** [step >= max_steps] *)
Definition ge_bound (step : Z) (b : bound) : bool :=
  match b with
  | Finite z => z <=? step
  | Infinity => false
  end.

(** [os.path.join(base, name)] for a relative [name]. *)
Definition ends_with_slash (s : string) : bool :=
  match String.length s with
  | O => false
  | S n => match String.get n s with
           | Some c => Ascii.eqb c "/"%char
           | None => false
           end
  end.

Definition path_join (base name : string) : string :=
  if (String.eqb base "" || ends_with_slash base)%bool
  then (base ++ name)%string
  else (base ++ "/" ++ name)%string.

(** ** Collaborators

    The model loader, the model's forward computation, automatic
    differentiation and the optimizer come from libraries outside the
    repository. *)

Class Collaborators (F : Type) := {
  Params : Type;                  (* the array leaves of the model *)
  Static : Type;                  (* everything else in the model *)
  ModelConfig : Type;
  OptState : Type;
  Grads : Type;
  Updates : Type;
  load_model : string → (Params * Static) * ModelConfig;
  model_call : Params → Static → tensor → option tensor → option tensor →
               list (list (list F));
  jax_grad : (Params → result (F * F)) → Params → Grads;
  optimizer_init : Params → OptState;
  optimizer_update : Grads → OptState → Params → Updates * OptState;
  apply_updates : Params → Updates → Params
}.

(** A one-token vocabulary model without parameters: every logits row is
    [[0.0]].  With [Binary32.log_softmax_1] its arithmetic is exact. *)
Definition tiny_collaborators : Collaborators spec_float :=
  {| Params := unit; Static := unit; ModelConfig := unit;
     OptState := unit; Grads := unit; Updates := unit;
     load_model := λ _, ((tt, tt), tt);
     model_call := λ _ _ input_ids _ _,
       map (map (λ _, [Binary32.zero])) (rows (tensor_array input_ids));
     jax_grad := λ _ _, tt;
     optimizer_init := λ _, tt;
     optimizer_update := λ _ _ _, (tt, tt);
     apply_updates := λ _ _, tt |}.

Abbreviation dict := (gmap string tensor).
Abbreviation loc := positive.

Section Engine.
Context {F : Type} {J : Jax F} {C : Collaborators F}.

(** *** The world: dict objects, and what the run prints and calls *)

Inductive message :=
  | MsgCreatingMesh (mesh_shape : list Z)
  | MsgStep (prev_step : Z) (prev_loss prev_accuracy : F)
  | MsgFinalCheckpoint (dir : string)
  | MsgTrainingCompleted
  | MsgHFSaved (export_dir : string).

Inductive event :=
  | Print (m : message)
  | TrainingStep (batch : dict) (loss accuracy : F)
  | SaveCheckpoint (model : Params * Static) (model_config : ModelConfig)
                   (step : Z)
  | WaitUntilFinished
  | SaveModelToHF (model : Params * Static) (model_config : ModelConfig)
                  (output_dir tokenizer_name : string).

Record World := {
  heap : gmap loc dict;
  trace : list event
}.

Definition with_heap (w : World) (h : gmap loc dict) : World :=
  {| heap := h; trace := trace w |}.

Definition M (A : Type) : Type := World → World * result A.

#[export] Instance M_ret : MRet M := λ A a w, (w, Ok a).
#[export] Instance M_bind : MBind M := λ A B f m w,
  match m w with
  | (w', Ok a) => f a w'
  | (w', Raise e) => (w', Raise e)
  end.

Definition raise {A} (e : exn) : M A := λ w, (w, Raise e).

Definition lift {A} (r : result A) : M A := λ w, (w, r).

Definition emit (e : event) : M unit := λ w,
  ({| heap := heap w; trace := trace w ++ [e] |}, Ok tt).

Definition print (m : message) : M unit := emit (Print m).

(** A new dict object. *)
Definition new_dict (d : dict) : M loc := λ w,
  let l := fresh (dom (heap w)) in
  ({| heap := <[l := d]> (heap w); trace := trace w |}, Ok l).

Definition deref (l : loc) : M dict := λ w,
  match heap w !! l with
  | Some d => (w, Ok d)
  | None => (w, Raise ReferenceError)
  end.

Definition dict_getitem (d : dict) (k : string) : result tensor :=
  match d !! k with
  | Some v => Ok v
  | None => Raise (KeyError k)
  end.

(** [batch[k]] *)
Definition getitem (l : loc) (k : string) : M tensor :=
  d ← deref l; lift (dict_getitem d k).

(** [batch[k] = v] *)
Definition setitem (l : loc) (k : string) (v : tensor) : M unit := λ w,
  match heap w !! l with
  | Some d =>
      ({| heap := <[l := <[k := v]> d]> (heap w); trace := trace w |},
       Ok tt)
  | None => (w, Raise ReferenceError)
  end.

(** *** [get_mesh] *)

Definition get_mesh (num_tpus : Z) : M Mesh :=
  mesh_shape ←
    (if num_tpus =? 4 then mret [1; 2; 2]
     else if num_tpus =? 8 then mret [2; 2; 2]
     else raise (ValueError
                   ("Invalid number of TPUs: " +:+ pretty num_tpus)));
  _ ← print (MsgCreatingMesh mesh_shape);
  let device_mesh := create_device_mesh mesh_shape in
  mret {| mesh_shape := device_mesh;
          axis_names := ["batch"; "fsdp"; "mp"]%string |}.

(** *** [_preprocess_batch] *)

Definition _preprocess_batch (batch : loc) : M loc :=
  items ← deref batch;
  batch ← new_dict (to_jax <$> items);
  v ← getitem batch "input_ids";
  v ← lift (tensor_astype v dt_int32);
  _ ← setitem batch "input_ids" v;
  v ← getitem batch "labels";
  v ← lift (tensor_astype v dt_int32);
  _ ← setitem batch "labels" v;
  v ← getitem batch "input_ids";
  seq_length ← lift (shape_at v 1);
  let position_row := expand_dims0 (jnp_arange seq_length) in
  v ← getitem batch "input_ids";
  batch_size ← lift (shape_at v 0);
  _ ← setitem batch "position_ids"
        (JaxArray (jnp_repeat0 position_row batch_size));
  mret batch.

(** The contents of the dict that [_preprocess_batch] returns, as a
    function of the contents [items] of the dict it is given. *)
Definition preprocess_items (items : dict) : result dict :=
  let batch := to_jax <$> items in
  v ← dict_getitem batch "input_ids";
  v ← tensor_astype v dt_int32;
  let batch := <["input_ids" := v]> batch in
  v ← dict_getitem batch "labels";
  v ← tensor_astype v dt_int32;
  let batch := <["labels" := v]> batch in
  v ← dict_getitem batch "input_ids";
  seq_length ← shape_at v 1;
  let position_row := expand_dims0 (jnp_arange seq_length) in
  v ← dict_getitem batch "input_ids";
  batch_size ← shape_at v 0;
  mret (<["position_ids" := JaxArray (jnp_repeat0 position_row batch_size)]>
          batch).

(** The array [position_ids] that [_preprocess_batch] adds. *)
Definition position_ids_of (batch_size seq_length : nat) : tensor :=
  JaxArray (jnp_repeat0 (expand_dims0 (jnp_arange seq_length)) batch_size).

(** A batch in canonical form: JAX arrays only, int32 ids and labels,
    position ids present. *)
Definition canonical (d : dict) : Prop :=
  (∀ k v, d !! k = Some v → is_jax_array v = true)
  ∧ (∃ a, d !! "input_ids" = Some (JaxArray a) ∧ nd_dtype a = dt_int32)
  ∧ (∃ a, d !! "labels" = Some (JaxArray a) ∧ nd_dtype a = dt_int32)
  ∧ is_Some (d !! "position_ids").

Definition int32_range (z : Z) : Prop := - 2 ^ 31 ≤ z < 2 ^ 31.

(** *** [Trainer] *)


Record Trainer := {
  trainer_config : TrainerConfig;
  train_dataloader : list dict;   (* the batches it yields, in order *)
  val_dataloader : list dict;
  mesh : Mesh;
  checkpointer : option Checkpointer;
  model : Params * Static;
  model_config : ModelConfig;
  opt_state : OptState
}.

(** [Trainer.__init__], with [configure_optimizers] inlined. *)
Definition Trainer_init (trainer_config : TrainerConfig)
    (train_dataloader val_dataloader : list dict)
    (mesh : option Mesh) (checkpointer : option Checkpointer)
    : M Trainer :=
  _ ← (if String.eqb (model_name trainer_config) ""
       then raise (AssertionError "model_name must be provided")
       else mret tt);
  mesh ← match mesh with
         | Some m => mret m
         | None => get_mesh (num_tpus trainer_config)
         end;
  let '(model, model_config) := load_model (model_name trainer_config) in
  let opt_state := optimizer_init (fst model) in
  mret {| trainer_config := trainer_config;
          train_dataloader := train_dataloader;
          val_dataloader := val_dataloader;
          mesh := mesh; checkpointer := checkpointer;
          model := model; model_config := model_config;
          opt_state := opt_state |}.

(** The shift for next-token prediction in [Trainer.forward]: the three
    arguments handed to the loss function. *)
Definition shifted_inputs (logits : list (list (list F)))
    (labels : tensor) (attention_mask : option tensor)
    : result (list (list (list F)) * list (list Z)
              * option (list (list Z))) :=
  let shifted_logits := map drop_last logits in      (* [..., :-1, :] *)
  shifted_labels ← slice_from1 (tensor_array labels);       (* [..., 1:] *)
  shifted_mask ←
    match attention_mask with
    | Some m => Some <$> slice_from1 (tensor_array m)
    | None => Ok None
    end;
  mret (shifted_logits, rows shifted_labels, rows <$> shifted_mask).

Definition forward (model_params : Params) (model_static : Static)
    (batch : dict) : result (F * F) :=
  input_ids ← dict_getitem batch "input_ids";
  labels ← dict_getitem batch "labels";
  let attention_mask := batch !! "attention_mask" in
  let position_ids := batch !! "position_ids" in
  let logits :=
    model_call model_params model_static input_ids attention_mask
               position_ids in
  '(shifted_logits, shifted_labels, shifted_mask) ←
    shifted_inputs logits labels attention_mask;
  mret (_cross_entropy_loss_and_accuracy shifted_logits shifted_labels
                                         shifted_mask).

(** [jax.value_and_grad(f, argnums=0, has_aux=True)] *)
Definition value_and_grad (f : Params → result (F * F)) (p : Params)
    : result (F * F * Grads) :=
  v ← f p; mret (v, jax_grad f p).

Definition training_step (model_params : Params) (model_static : Static)
    (optimizer_state : OptState) (batch : dict)
    : result (F * (F * Params * OptState)) :=
  let grad_fn := value_and_grad (λ p, forward p model_static batch) in
  '(loss, accuracy, grads) ← grad_fn model_params;
  let '(updates, optimizer_state) :=
    optimizer_update grads optimizer_state model_params in
  let model_params := apply_updates model_params updates in
  mret (loss, (accuracy, model_params, optimizer_state)).

(** The local variables of [Trainer.train] that the loop assigns. *)
Record locals := {
  l_step : option Z;              (* unbound until the loop binds it *)
  l_prev_step : Z;
  l_prev_loss : F;
  l_prev_accuracy : F;
  l_model_params : Params;
  l_optimizer_state : OptState
}.

Definition read_local (name : string) (v : option Z) : result Z :=
  match v with
  | Some z => Ok z
  | None => Raise (UnboundLocalError name)
  end.

(** [jax.device_put]: placement only. *)
Definition device_put {A} (x : A) : A := x.

Definition save_checkpoint (model : Params * Static)
    (model_config : ModelConfig) (step : Z) : M unit :=
  emit (SaveCheckpoint model model_config step).

(** The [for step, batch in enumerate(self.train_dataloader)] loop, from
    index [step] on, over the batches still to come. *)
Fixpoint train_loop (self : Trainer) (model_static : Static)
    (max_steps : bound) (step : Z) (batches : list dict) (σ : locals)
    : M locals :=
  match batches with
  | [] => mret σ
  | batch :: rest =>
      let σ := {| l_step := Some step; l_prev_step := l_prev_step σ;
                  l_prev_loss := l_prev_loss σ;
                  l_prev_accuracy := l_prev_accuracy σ;
                  l_model_params := l_model_params σ;
                  l_optimizer_state := l_optimizer_state σ |} in
      if ge_bound step max_steps then mret σ            (* break *)
      else
        _ ← (if step =? 0 then mret tt
             else print (MsgStep (l_prev_step σ) (l_prev_loss σ)
                                 (l_prev_accuracy σ)));
        batch ← new_dict batch;
        batch ← _preprocess_batch batch;
        batch ← deref (device_put batch);
        let optimizer_state := device_put (l_optimizer_state σ) in
        '(loss, (accuracy, model_params, optimizer_state)) ←
          lift (training_step (l_model_params σ) model_static
                              optimizer_state batch);
        _ ← emit (TrainingStep batch loss accuracy);
        let σ := {| l_step := Some step; l_prev_step := step + 1;
                    l_prev_loss := loss; l_prev_accuracy := accuracy;
                    l_model_params := model_params;
                    l_optimizer_state := optimizer_state |} in
        _ ← match checkpointer self with
            | Some _ =>
                save_checkpoint (model_params, model_static)
                                (model_config self) (step + 1)
            | None => mret tt
            end;
        train_loop self model_static max_steps (step + 1) rest σ
  end.

(** [self.model = model] *)
Definition with_model (self : Trainer) (model : Params * Static) : Trainer :=
  {| trainer_config := trainer_config self;
     train_dataloader := train_dataloader self;
     val_dataloader := val_dataloader self;
     mesh := mesh self; checkpointer := checkpointer self;
     model := model;
     model_config := model_config self;
     opt_state := opt_state self |}.

Definition train (self : Trainer) : M Trainer :=
  let '(model_params, model_static) := model self in
  let optimizer_state := opt_state self in
  let max_steps := max_steps_of (num_steps (trainer_config self)) in
  σ ← train_loop self model_static max_steps 0 (train_dataloader self)
        {| l_step := None; l_prev_step := 0;
           l_prev_loss := f32_zero; l_prev_accuracy := f32_zero;
           l_model_params := model_params;
           l_optimizer_state := optimizer_state |};
  _ ← match checkpointer self with
      | Some c =>
          let model := (l_model_params σ, model_static) in
          step ← lift (read_local "step" (l_step σ));
          _ ← save_checkpoint model (model_config self) (step + 1);
          _ ← emit WaitUntilFinished;
          print (MsgFinalCheckpoint (checkpoint_dir c))
      | None => mret tt
      end;
  let self := with_model self (l_model_params σ, model_static) in
  _ ← print MsgTrainingCompleted;
  let export_dir :=
    path_join (base_dir (trainer_config self)) "hf_export" in
  _ ← emit (SaveModelToHF (model self) (model_config self) export_dir
                          (model_name (trainer_config self)));
  _ ← print (MsgHFSaved export_dir);
  mret self.

(** *** The run of [train], step by step

    A batch is well formed when preprocessing and the forward pass find
    what they index: ids with a batch and a sequence axis, labels and (if
    present) an attention mask with a last axis. *)

Definition rank_of (v : tensor) : nat := length (nd_shape (tensor_array v)).







(** [validation_step] is a placeholder. *)
Definition validation_step (model_params : Params) (model_static : Static)
    (optimizer_state : OptState) (batch : dict) : unit := tt.



(** *** Readings of a trace *)


Definition is_metrics_print (e : event) : bool :=
  match e with Print (MsgStep _ _ _) => true | _ => false end.



(** The calls to the checkpointer and to the export function. *)
Inductive checkpoint_call :=
  | CallSave (step : Z)
  | CallWait
  | CallExport.

Definition checkpoint_calls (evs : list event) : list checkpoint_call :=
  omap (λ e, match e with
             | SaveCheckpoint _ _ step => Some (CallSave step)
             | WaitUntilFinished => Some CallWait
             | SaveModelToHF _ _ _ _ => Some CallExport
             | _ => None
             end) evs.



End Engine.

(** ** The loss and accuracy formulas, sequence by sequence

    These definitions are written from the specification: an index-based
    formula for one sequence [r] of the batch, and the batch mean of it.
    [b] and [s] are the batch size and the sequence length. *)

(** A vector and a matrix given by their entries. *)
Definition tabulate {A} (n : nat) (g : nat → A) : list A := map g (seq 0 n).

Definition tabulate2 {A} (b s : nat) (g : nat → nat → A) : list (list A) :=
  tabulate b (λ r, tabulate s (g r)).

Section LossFormula.
Context {F : Type} `{Jax F}.

Definition has_shape2 {A} (b s : nat) (t : list (list A)) : Prop :=
  length t = b ∧ Forall (λ row, length row = s) t.

Definition has_shape3 {A} (b s v : nat) (t : list (list (list A))) : Prop :=
  length t = b ∧ Forall (has_shape2 s v) t.

(** The mask entry as a float32; all ones when the mask is absent. *)
Definition mask_at (mask : option (list (list Z))) (r i : nat) : F :=
  match mask with
  | None => f32_one
  | Some m => f32_of_Z (nth i (nth r m []) 0)
  end.

Definition logits_at (logits : list (list (list F))) (r i : nat) : list F :=
  nth i (nth r logits []) [].

Definition token_at (tokens : list (list Z)) (r i : nat) : Z :=
  nth i (nth r tokens []) 0.

(** max(mask sum of the sequence, 1e-10) *)
Definition seq_valid_length (s : nat) (mask : option (list (list Z)))
    (r : nat) : F :=
  f32_maximum (fsum (map (mask_at mask r) (seq 0 s))) f32_eps.

(** The sum over the sequence of the target tokens' log-softmax
    probabilities, masked-out positions counting as zero. *)
Definition seq_log_prob (s : nat) (logits : list (list (list F)))
    (tokens : list (list Z)) (mask : option (list (list Z))) (r : nat) : F :=
  fsum (map (λ i, if f32_gt (mask_at mask r i) f32_zero
                  then take1 (log_softmax (logits_at logits r i))
                             (token_at tokens r i)
                  else f32_zero)
            (seq 0 s)).

(** The number of unmasked positions whose argmax is the target. *)
Definition seq_correct (s : nat) (logits : list (list (list F)))
    (tokens : list (list Z)) (mask : option (list (list Z))) (r : nat) : Z :=
  Z.of_nat
    (length (List.filter
               (λ i, f32_gt (mask_at mask r i) f32_zero
                     && (argmax (logits_at logits r i)
                         =? token_at tokens r i))
               (seq 0 s))).

(** The per-sequence terms that enter the two batch means. *)
Definition loss_term (s : nat) (logits : list (list (list F)))
    (tokens : list (list Z)) (mask : option (list (list Z))) (r : nat) : F :=
  f32_div (seq_log_prob s logits tokens mask r)
          (seq_valid_length s mask r).

Definition accuracy_term (s : nat) (logits : list (list (list F)))
    (tokens : list (list Z)) (mask : option (list (list Z))) (r : nat) : F :=
  f32_div (f32_of_Z (seq_correct s logits tokens mask r))
          (seq_valid_length s mask r).

Definition spec_loss (b s : nat) (logits : list (list (list F)))
    (tokens : list (list Z)) (mask : option (list (list Z))) : F :=
  f32_neg (fmean (map (loss_term s logits tokens mask) (seq 0 b))).

Definition spec_accuracy (b s : nat) (logits : list (list (list F)))
    (tokens : list (list Z)) (mask : option (list (list Z))) : F :=
  fmean (map (accuracy_term s logits tokens mask) (seq 0 b)).

End LossFormula.

(** ** Sample data *)

Module Sample.

Definition jax32 : Jax spec_float :=
  Binary32.jax false Binary32.log_softmax_1.

(** A PyTorch batch of shape (2, 3). *)
Definition torch_batch : dict :=
  {[ "input_ids" := TorchTensor (NdArray dt_int64 [2; 3]%nat [5; 6; 7; 8; 9; 10]);
     "labels" := TorchTensor (NdArray dt_int64 [2; 3]%nat [0; 0; 0; 0; 0; 0]);
     "attention_mask" := TorchTensor (NdArray dt_int64 [2; 3]%nat [1; 1; 1; 1; 1; 0]) ]}.

(** The same batch in canonical form, with position ids of its own. *)
Definition canonical_batch : dict :=
  {[ "input_ids" := JaxArray (NdArray dt_int32 [2; 3]%nat [5; 6; 7; 8; 9; 10]);
     "labels" := JaxArray (NdArray dt_int32 [2; 3]%nat [0; 0; 0; 0; 0; 0]);
     "position_ids" := JaxArray (NdArray dt_int32 [2; 3]%nat [2; 1; 0; 2; 1; 0]) ]}.

Definition world_with (d : dict) : @World spec_float tiny_collaborators :=
  {| heap := {[ 1%positive := d ]}; trace := [] |}.

Definition empty_world : @World spec_float tiny_collaborators :=
  {| heap := ∅; trace := [] |}.

Definition config (num_steps : option Z) : TrainerConfig :=
  {| model_name := "tiny"; param_dtype := "float32";
     output_dtype := "float32"; num_epochs := 1; num_steps := num_steps;
     num_tpus := 4; base_dir := "/mnt/persistent-disk" |}.

Definition tiny_model : @Params _ tiny_collaborators * @Static _ tiny_collaborators :=
  (tt, tt).

Definition trainer (num_steps : option Z) (batches : list dict)
    (checkpointer : option Checkpointer)
    : @Trainer spec_float tiny_collaborators :=
  {| trainer_config := config num_steps;
     train_dataloader := batches; val_dataloader := [];
     mesh := {| mesh_shape := [1; 2; 2];
                axis_names := ["batch"; "fsdp"; "mp"]%string |};
     checkpointer := checkpointer;
     model := tiny_model;
     model_config := (tt : @ModelConfig _ tiny_collaborators);
     opt_state := (tt : @OptState _ tiny_collaborators) |}.

Definition checkpoints : Checkpointer := {| checkpoint_dir := "/ckpt" |}.

End Sample.

(** ** The outcome of [train] as a function

    [loop_result] and [train_result] follow [train_loop] and [train]
    statement by statement and return the events appended to the trace
    together with the result; they leave out the store of dict objects,
    which only [_preprocess_batch] touches. *)

Section Outcome.
Context {F : Type} {J : Jax F} {C : Collaborators F}.










End Outcome.

(** * Properties *)

(** ** Lists read by index *)

Section ByIndex.
Context {A B C : Type}.

Lemma map_by_index (g : A → B) (d : A) (l : list A) :
  map g l = map (λ i, g (nth i l d)) (seq 0 (length l)).
Proof.
  induction l as [|x l IH]; simpl; [reflexivity|].
  f_equal. rewrite <- seq_shift, List.map_map. exact IH.
Qed.

Lemma zip_with_by_index (f : A → B → C) (d1 : A) (d2 : B) :
  ∀ (n : nat) (l1 : list A) (l2 : list B),
    length l1 = n → length l2 = n →
    zip_with f l1 l2 = map (λ i, f (nth i l1 d1) (nth i l2 d2)) (seq 0 n).
Proof.
  induction n as [|n IH]; intros [|x l1] [|y l2] H1 H2;
    simpl in *; try discriminate; [reflexivity|].
  f_equal. rewrite <- seq_shift, List.map_map.
  apply IH; congruence.
Qed.

Lemma map_seq_ext (f g : nat → A) (n : nat) :
  (∀ i, (i < n)%nat → f i = g i) → map f (seq 0 n) = map g (seq 0 n).
Proof.
  intros E. apply List.map_ext_in. intros i Hi.
  apply in_seq in Hi. apply E. lia.
Qed.
End ByIndex.

Lemma nth_replicate {A} (n r : nat) (x d : A) :
  (r < n)%nat → nth r (replicate n x) d = x.
Proof.
  revert r. induction n as [|n IH]; intros [|r] Hr; simpl;
    [lia | lia | reflexivity | apply IH; lia].
Qed.

Lemma replicate_as_map {A} (n : nat) (x : A) :
  replicate n x = map (λ _, x) (seq 0 n).
Proof.
  generalize 0%nat. induction n as [|n IH]; intros k; simpl;
    [reflexivity | f_equal; apply IH].
Qed.

Lemma shape2_row {A} (b s : nat) (t : list (list A)) (r : nat) :
  has_shape2 b s t → (r < b)%nat → length (nth r t []) = s.
Proof.
  intros [Hb Hs] Hr. rewrite List.Forall_forall in Hs.
  apply Hs, nth_In. lia.
Qed.

Lemma shape3_row {A} (b s v : nat) (t : list (list (list A))) (r : nat) :
  has_shape3 b s v t → (r < b)%nat → length (nth r t []) = s.
Proof.
  intros [Hb Hs] Hr. rewrite List.Forall_forall in Hs.
  apply (Hs (nth r t [])), nth_In. lia.
Qed.

Lemma bsum_from (bs : list bool) (acc : Z) :
  fold_left (λ a (x : bool), a + Z.b2z x) bs acc
  = acc + Z.of_nat (length (List.filter (λ x : bool, x) bs)).
Proof.
  revert acc. induction bs as [|[] bs IH]; intros acc; simpl.
  - lia.
  - rewrite IH. lia.
  - rewrite IH. lia.
Qed.

Lemma filter_id_map {A} (p : A → bool) (l : list A) :
  length (List.filter (λ x : bool, x) (map p l)) = length (List.filter p l).
Proof.
  induction l as [|x l IH]; simpl; [reflexivity|].
  destruct (p x); simpl; rewrite IH; reflexivity.
Qed.

Lemma bsum_map_filter {A} (p : A → bool) (l : list A) :
  bsum (map p l) = Z.of_nat (length (List.filter p l)).
Proof.
  unfold bsum. rewrite bsum_from, filter_id_map. lia.
Qed.

Section LossProofs.
Context {F : Type} `{Jax F}.

Lemma float_mask_length (b s : nat) tokens mask :
  has_shape2 b s tokens →
  (∀ m, mask = Some m → has_shape2 b s m) →
  length (float_mask tokens mask) = b.
Proof.
  intros [Hb _] Hm. destruct mask as [m|]; unfold float_mask.
  - rewrite length_map. apply (Hm m eq_refl).
  - unfold jnp_ones. simpl. rewrite length_replicate. exact Hb.
Qed.

Lemma float_mask_row (b s : nat) tokens mask (r : nat) :
  has_shape2 b s tokens →
  (∀ m, mask = Some m → has_shape2 b s m) →
  (r < b)%nat →
  nth r (float_mask tokens mask) [] = map (mask_at mask r) (seq 0 s).
Proof.
  intros Ht Hm Hr. destruct mask as [m|]; unfold float_mask, mask_at.
  - pose proof (Hm m eq_refl) as Hs.
    replace (@nil F) with (map f32_of_Z []) by reflexivity.
    rewrite List.map_nth.
    rewrite (map_by_index f32_of_Z 0).
    rewrite (shape2_row b s m r Hs Hr). reflexivity.
  - destruct Ht as [Hb Hrows]. unfold float_mask, jnp_ones.
    rewrite nth_replicate by (simpl; lia).
    destruct tokens as [|row tokens]; [simpl in Hb; lia|].
    apply Forall_cons in Hrows as [Hrow _]. simpl. rewrite Hrow.
    apply replicate_as_map.
Qed.
End LossProofs.

(** ** Tensors given by index functions *)

Section Tabulate.
Context {A B C : Type}.


Lemma tabulate_ext (f g : nat → A) (n : nat) :
  (∀ i, (i < n)%nat → f i = g i) → tabulate n f = tabulate n g.
Proof. apply map_seq_ext. Qed.

Lemma length_tabulate (g : nat → A) (n : nat) : length (tabulate n g) = n.
Proof. unfold tabulate. rewrite length_map. apply length_seq. Qed.

Lemma as_tabulate (d : A) (n : nat) (l : list A) :
  length l = n → l = tabulate n (λ i, nth i l d).
Proof.
  intros <-. unfold tabulate. rewrite <- (map_by_index (λ x, x) d l).
  symmetry. apply List.map_id.
Qed.

Lemma map_tabulate (f : A → B) (g : nat → A) (n : nat) :
  map f (tabulate n g) = tabulate n (λ i, f (g i)).
Proof. unfold tabulate. apply List.map_map. Qed.

Lemma zip_with_tabulate (f : A → B → C) (g1 : nat → A) (g2 : nat → B)
    (n : nat) :
  zip_with f (tabulate n g1) (tabulate n g2)
  = tabulate n (λ i, f (g1 i) (g2 i)).
Proof.
  unfold tabulate. generalize 0%nat.
  induction n as [|n IH]; intros k; simpl; [reflexivity|].
  f_equal. apply IH.
Qed.

End Tabulate.

Section Tabulate2.
Context {A B C : Type}.

Lemma tabulate2_shape (g : nat → nat → A) (b s : nat) :
  has_shape2 b s (tabulate2 b s g).
Proof.
  unfold tabulate2. split; [apply length_tabulate|].
  apply List.Forall_forall. intros row Hrow.
  unfold tabulate at 1 in Hrow.
  apply in_map_iff in Hrow as (r & <- & _).
  apply length_tabulate.
Qed.

Lemma as_tabulate2 (d : A) (b s : nat) (t : list (list A)) :
  has_shape2 b s t → t = tabulate2 b s (λ r i, nth i (nth r t []) d).
Proof.
  intros Ht. unfold tabulate2.
  rewrite (as_tabulate [] b t) at 1 by apply Ht.
  apply tabulate_ext. intros r Hr.
  apply as_tabulate. exact (shape2_row b s t r Ht Hr).
Qed.

Lemma zip_with_tabulate2 (f : A → B → C) (g1 : nat → nat → A)
    (g2 : nat → nat → B) (b s : nat) :
  zip_with (zip_with f) (tabulate2 b s g1) (tabulate2 b s g2)
  = tabulate2 b s (λ r i, f (g1 r i) (g2 r i)).
Proof.
  unfold tabulate2. rewrite zip_with_tabulate.
  apply tabulate_ext. intros r _. apply zip_with_tabulate.
Qed.

Lemma map_tabulate2 (f : A → B) (g : nat → nat → A) (b s : nat) :
  map (map f) (tabulate2 b s g) = tabulate2 b s (λ r i, f (g r i)).
Proof.
  unfold tabulate2. rewrite map_tabulate.
  apply tabulate_ext. intros r _. apply map_tabulate.
Qed.

Lemma map_rows_tabulate2 (h : list A → B) (g : nat → nat → A) (b s : nat) :
  map h (tabulate2 b s g) = tabulate b (λ r, h (tabulate s (g r))).
Proof. unfold tabulate2. apply map_tabulate. Qed.
End Tabulate2.

Lemma shape3_outer {A} (b s v : nat) (t : list (list (list A))) :
  has_shape3 b s v t → has_shape2 b s t.
Proof.
  intros [Hb Hrows]. split; [exact Hb|].
  eapply List.Forall_impl; [|exact Hrows]. intros row Hrow. apply Hrow.
Qed.

Section LossProofs2.
Context {F : Type} `{Jax F}.

Lemma float_mask_tabulate (b s : nat) tokens mask :
  has_shape2 b s tokens →
  (∀ m, mask = Some m → has_shape2 b s m) →
  float_mask tokens mask = tabulate2 b s (mask_at mask).
Proof.
  intros Ht Hm. unfold tabulate2.
  rewrite (as_tabulate [] b (float_mask tokens mask))
    by (eapply float_mask_length; eauto).
  apply tabulate_ext. intros r Hr.
  eapply float_mask_row; eauto.
Qed.

Lemma sequence_terms_formula (b s v : nat)
    (logits : list (list (list F))) (tokens : list (list Z))
    (mask : option (list (list Z))) :
  has_shape3 b s v logits →
  has_shape2 b s tokens →
  (∀ m, mask = Some m → has_shape2 b s m) →
  sequence_terms logits tokens mask
  = (tabulate b (loss_term s logits tokens mask),
     tabulate b (accuracy_term s logits tokens mask)).
Proof.
  intros Hl Ht Hm. unfold sequence_terms.
  rewrite (float_mask_tabulate b s tokens mask Ht Hm).
  rewrite (as_tabulate2 [] b s logits (shape3_outer b s v logits Hl)) at 1 2.
  rewrite (as_tabulate2 0 b s tokens Ht) at 1 2.
  unfold where_pos.
  rewrite map_tabulate2, !zip_with_tabulate2.
  rewrite !map_rows_tabulate2, !zip_with_tabulate.
  apply f_equal2; [reflexivity|].
  apply tabulate_ext. intros r _.
  unfold accuracy_term, seq_correct, tabulate.
  rewrite bsum_map_filter.
  apply (f_equal (λ n, f32_div (f32_of_Z (Z.of_nat (length n))) _)).
  apply List.filter_ext. intros i.
  unfold logits_at, token_at.
  destruct (f32_gt (mask_at mask r i) f32_zero); reflexivity.
Qed.

Lemma default_mask_ones (b s : nat) (tokens : list (list Z)) :
  has_shape2 b s tokens →
  float_mask tokens None = replicate b (replicate s f32_one).
Proof.
  intros [Hb Hrows]. unfold float_mask, jnp_ones, shape2. simpl.
  destruct tokens as [|row tokens]; simpl in *; subst b; [reflexivity|].
  apply Forall_cons in Hrows as [-> _]. reflexivity.
Qed.

(** C1: on logits of shape (batch, seq, vocab), token ids of shape
    (batch, seq) and an optional mask of that shape, the function returns
    minus the batch mean of (masked target log-probability sum / max(mask
    sum, 1e-10)) as the loss, and the batch mean of (masked argmax hits /
    the same floored count) as the accuracy; an absent mask is replaced
    by the all-ones mask of shape (batch, seq). *)
Theorem cross_entropy_matches_formula (b s v : nat)
    (logits : list (list (list F))) (tokens : list (list Z))
    (mask : option (list (list Z))) :
  has_shape3 b s v logits →
  has_shape2 b s tokens →
  (∀ m, mask = Some m → has_shape2 b s m) →
  _cross_entropy_loss_and_accuracy logits tokens mask
  = (spec_loss b s logits tokens mask,
     spec_accuracy b s logits tokens mask)
  ∧ (mask = None →
     float_mask tokens mask = replicate b (replicate s f32_one)).
Proof.
  intros Hl Ht Hm. split.
  - unfold _cross_entropy_loss_and_accuracy.
    rewrite (sequence_terms_formula b s v) by assumption.
    reflexivity.
  - intros ->. apply default_mask_ones, Ht.
Qed.

(** *** A fully masked sequence *)

Context `{!JaxLaws F}.





End LossProofs2.

(** ** The binary32 instance *)


Example binary32_eps : Binary32.eps = S754_finite false 14411519 (-57).
Proof. vm_compute. reflexivity. Qed.

Example binary32_eps_valid :
  valid_binary Binary32.prec Binary32.emax Binary32.eps = true.
Proof. vm_compute. reflexivity. Qed.

Lemma cross_entropy_matches_formula_witness :
  let J := Binary32.jax false Binary32.log_softmax_1 in
  let x := Binary32.one in
  let logits := [[[x]; [x]]; [[x]; [x]]] in
  let tokens := [[0; 0]; [0; 0]] in
  let mask := Some [[1; 0]; [1; 1]] in
  has_shape3 2 2 1 logits ∧
  has_shape2 2 2 tokens ∧
  (∀ m, mask = Some m → has_shape2 2 2 m) ∧
  (_cross_entropy_loss_and_accuracy logits tokens mask
   = (spec_loss 2 2 logits tokens mask, spec_accuracy 2 2 logits tokens mask)
   ∧ (mask = None →
      float_mask tokens mask = replicate 2 (replicate 2 f32_one))).
Proof.
  intros J x logits tokens mask.
  assert (Hl : has_shape3 2 2 1 logits)
    by (split; [reflexivity | repeat constructor]).
  assert (Ht : has_shape2 2 2 tokens)
    by (split; [reflexivity | repeat constructor]).
  assert (Hm : ∀ m, mask = Some m → has_shape2 2 2 m)
    by (intros m [= <-]; split; [reflexivity | repeat constructor]).
  split; [exact Hl|]. split; [exact Ht|]. split; [exact Hm|].
  exact (cross_entropy_matches_formula 2 2 1 logits tokens mask Hl Ht Hm).
Defined.

Example cross_entropy_binary32 :
  let J := Binary32.jax false Binary32.log_softmax_1 in
  let x := Binary32.one in
  _cross_entropy_loss_and_accuracy
    [[[x]; [x]]; [[x]; [x]]] [[0; 0]; [0; 0]] (Some [[0; 0]; [1; 1]])
  = (S754_zero true, S754_finite false 8388608 (-24)).
Proof. vm_compute. reflexivity. Qed.


(** ** [get_mesh] *)

Section MeshProofs.
Context {F : Type} {J : Jax F} {C : Collaborators F}.

End MeshProofs.

(** ** Running the world monad *)

Section MonadRun.
Context {F : Type} {J : Jax F} {C : Collaborators F}.

Lemma bind_run {A B} (m : M A) (f : A → M B) (w : World) :
  (m ≫= f) w = match m w with
               | (w', Ok a) => f a w'
               | (w', Raise e) => (w', Raise e)
               end.
Proof. reflexivity. Qed.

Lemma getitem_run (l : loc) (k : string) (d : dict) (w : World) :
  heap w !! l = Some d → getitem l k w = (w, dict_getitem d k).
Proof.
  intros Hl. unfold getitem. rewrite bind_run. unfold deref. rewrite Hl.
  reflexivity.
Qed.

Lemma setitem_run (l : loc) (k : string) (v : tensor) (d : dict) (w : World) :
  heap w !! l = Some d →
  setitem l k v w = (with_heap w (<[l := <[k := v]> d]> (heap w)), Ok tt).
Proof. intros Hl. unfold setitem. rewrite Hl. reflexivity. Qed.

Lemma fresh_loc_unused (w : World) : heap w !! fresh (dom (heap w)) = None.
Proof. apply not_elem_of_dom, is_fresh. Qed.

Lemma with_heap_heap (w : World) h : heap (with_heap w h) = h.
Proof. reflexivity. Qed.

Lemma with_heap_twice (w : World) h1 h2 :
  with_heap (with_heap w h1) h2 = with_heap w h2.
Proof. reflexivity. Qed.

Lemma lift_run {A} (r : result A) (w : World) : lift r w = (w, r).
Proof. reflexivity. Qed.

Lemma result_bind_ok {A B} (a : A) (f : A → result B) : Ok a ≫= f = f a.
Proof. reflexivity. Qed.

Lemma result_bind_raise {A B} (e : exn) (f : A → result B) :
  Raise e ≫= f = Raise e.
Proof. reflexivity. Qed.

Ltac result_cases r v e :=
  destruct r as [v|e];
  rewrite ?result_bind_ok, ?result_bind_raise; cbv beta iota;
  [|eexists; split; [reflexivity | discriminate]].

(** [_preprocess_batch] allocates one dict, fills it as [preprocess_items]
    says, and touches nothing else. *)
Lemma preprocess_run (l : loc) (d : dict) (w : World) :
  heap w !! l = Some d →
  let l' := fresh (dom (heap w)) in
  ∃ d'' : dict,
    _preprocess_batch l w
    = (with_heap w (<[l' := d'']> (heap w)),
       (λ _, l') <$> preprocess_items d)
    ∧ (∀ d', preprocess_items d = Ok d' → d'' = d').
Proof.
  intros Hl l'. unfold _preprocess_batch, preprocess_items.
  rewrite bind_run. unfold deref at 1. rewrite Hl.
  rewrite bind_run. unfold new_dict at 1. fold l'.
  fold (with_heap w (<[l':=to_jax <$> d]> (heap w))).
  set (d0 := to_jax <$> d). cbv beta iota zeta.
  rewrite bind_run, (getitem_run l' _ d0) by apply lookup_insert_eq.
  result_cases (dict_getitem d0 "input_ids") v1 e.
  rewrite bind_run, lift_run.
  result_cases (tensor_astype v1 dt_int32) v1' e.
  rewrite bind_run, (setitem_run l' _ _ d0) by apply lookup_insert_eq.
  rewrite with_heap_heap, with_heap_twice, insert_insert_eq.
  set (d1 := <["input_ids" := v1']> d0).
  rewrite bind_run, (getitem_run l' _ d1) by apply lookup_insert_eq.
  result_cases (dict_getitem d1 "labels") v2 e.
  rewrite bind_run, lift_run.
  result_cases (tensor_astype v2 dt_int32) v2' e.
  rewrite bind_run, (setitem_run l' _ _ d1) by apply lookup_insert_eq.
  rewrite with_heap_heap, with_heap_twice, insert_insert_eq.
  set (d2 := <["labels" := v2']> d1).
  rewrite bind_run, (getitem_run l' _ d2) by apply lookup_insert_eq.
  destruct (dict_getitem d2 "input_ids") as [v3|e] eqn:E3;
    rewrite ?result_bind_ok, ?result_bind_raise; cbv beta iota;
    [|eexists; split; [reflexivity | discriminate]].
  rewrite bind_run, lift_run.
  result_cases (shape_at v3 1) n e.
  rewrite bind_run, (getitem_run l' _ d2) by apply lookup_insert_eq.
  rewrite E3. cbv beta iota.
  rewrite bind_run, lift_run.
  result_cases (shape_at v3 0) k e.
  rewrite bind_run, (setitem_run l' _ _ d2) by apply lookup_insert_eq.
  rewrite with_heap_heap, with_heap_twice, insert_insert_eq.
  eexists. split; [reflexivity|]. intros d' [= <-]. reflexivity.
Qed.

End MonadRun.

(** ** [_preprocess_batch] *)


Lemma wrap_range (z : Z) : int32_range (wrap 32 z).
Proof.
  unfold int32_range, wrap.
  pose proof (Z.mod_pos_bound (z + 2 ^ (32 - 1)) (2 ^ 32) eq_refl).
  change (2 ^ (32 - 1)) with 2147483648 in *.
  change (2 ^ 32) with 4294967296 in *. change (2 ^ 31) with 2147483648.
  lia.
Qed.

Lemma wrap_fits (z : Z) : int32_range z → wrap 32 z = z.
Proof.
  unfold int32_range, wrap. intros Hz.
  change (2 ^ (32 - 1)) with 2147483648 in *.
  change (2 ^ 32) with 4294967296 in *. change (2 ^ 31) with 2147483648 in *.
  rewrite Z.mod_small by lia. lia.
Qed.

Lemma astype_int32_twice (a : ndarray) :
  astype (astype a dt_int32) dt_int32 = astype a dt_int32.
Proof.
  unfold astype. simpl. f_equal. rewrite List.map_map.
  apply List.map_ext. intros z. apply wrap_fits, wrap_range.
Qed.

Section PreprocessProofs.
Context {F : Type} {J : Jax F} {C : Collaborators F}.

Lemma to_jax_is_jax (v : tensor) : is_jax_array (to_jax v) = true.
Proof. destruct v; reflexivity. Qed.

Lemma to_jax_of_jax (v : tensor) : is_jax_array v = true → to_jax v = v.
Proof. destruct v; [discriminate | reflexivity]. Qed.

Lemma to_jax_shape (v : tensor) :
  nd_shape (tensor_array (to_jax v)) = nd_shape (tensor_array v).
Proof. destruct v; reflexivity. Qed.

(** The result of [preprocess_items] once the two lookups and the two
    dimensions are known. *)
Lemma preprocess_items_eval (d : dict) (ai al : ndarray) (b s : nat) :
  (to_jax <$> d) !! "input_ids" = Some (JaxArray ai) →
  (to_jax <$> d) !! "labels" = Some (JaxArray al) →
  nd_shape ai !! 0%nat = Some b →
  nd_shape ai !! 1%nat = Some s →
  preprocess_items d
  = Ok (<["position_ids" := position_ids_of b s]>
          (<["labels" := JaxArray (astype al dt_int32)]>
             (<["input_ids" := JaxArray (astype ai dt_int32)]>
                (to_jax <$> d)))).
Proof.
  intros Hi Hl Hb Hs. unfold preprocess_items, dict_getitem.
  rewrite Hi. simpl. rewrite lookup_insert_ne by done. rewrite Hl. simpl.
  rewrite lookup_insert_ne by done. rewrite lookup_insert_eq. simpl.
  unfold shape_at. simpl. rewrite Hs, Hb. reflexivity.
Qed.

Lemma preprocess_items_inv (d d1 : dict) :
  preprocess_items d = Ok d1 →
  ∃ ai al b s,
    (to_jax <$> d) !! "input_ids" = Some (JaxArray ai)
    ∧ (to_jax <$> d) !! "labels" = Some (JaxArray al)
    ∧ nd_shape ai !! 0%nat = Some b
    ∧ nd_shape ai !! 1%nat = Some s
    ∧ d1 = <["position_ids" := position_ids_of b s]>
             (<["labels" := JaxArray (astype al dt_int32)]>
                (<["input_ids" := JaxArray (astype ai dt_int32)]>
                   (to_jax <$> d))).
Proof.
  unfold preprocess_items, dict_getitem.
  destruct ((to_jax <$> d) !! "input_ids") as [vi|] eqn:Hi; [|discriminate].
  assert (Hji : is_jax_array vi = true).
  { rewrite lookup_fmap in Hi. destruct (d !! "input_ids"); [|discriminate].
    injection Hi as <-. apply to_jax_is_jax. }
  destruct vi as [|ai]; [discriminate|]. simpl.
  rewrite lookup_insert_ne by done.
  destruct ((to_jax <$> d) !! "labels") as [vl|] eqn:Hl; [|discriminate].
  assert (Hjl : is_jax_array vl = true).
  { rewrite lookup_fmap in Hl. destruct (d !! "labels"); [|discriminate].
    injection Hl as <-. apply to_jax_is_jax. }
  destruct vl as [|al]; [discriminate|]. simpl.
  rewrite lookup_insert_ne by done. rewrite lookup_insert_eq. simpl.
  unfold shape_at. simpl.
  destruct (nd_shape ai !! 1%nat) as [s|] eqn:Hs; [|discriminate]. simpl.
  destruct (nd_shape ai !! 0%nat) as [b|] eqn:Hb; [|discriminate]. simpl.
  intros [= <-]. exists ai, al, b, s. auto.
Qed.

Lemma preprocess_items_all_jax (d d1 : dict) (k : string) (v : tensor) :
  preprocess_items d = Ok d1 → d1 !! k = Some v → is_jax_array v = true.
Proof.
  intros Hd Hk.
  apply preprocess_items_inv in Hd as (ai & al & b & s & _ & _ & _ & _ & ->).
  repeat (apply lookup_insert_Some in Hk as [[_ <-]|[_ Hk]]; [reflexivity|]).
  rewrite lookup_fmap in Hk. destruct (d !! k); [|discriminate].
  injection Hk as <-. apply to_jax_is_jax.
Qed.

Lemma to_jax_fixed (d : dict) :
  (∀ k v, d !! k = Some v → is_jax_array v = true) → to_jax <$> d = d.
Proof.
  intros Hd. apply map_eq. intros k. rewrite lookup_fmap.
  destruct (d !! k) as [v|] eqn:Hk; [|reflexivity]. simpl.
  f_equal. apply to_jax_of_jax. eauto.
Qed.

(** Idempotence on dict contents. *)
Lemma preprocess_items_twice (d d1 : dict) :
  preprocess_items d = Ok d1 → preprocess_items d1 = Ok d1.
Proof.
  intros Hd.
  pose proof (to_jax_fixed d1 (λ k v, preprocess_items_all_jax d d1 k v Hd))
    as Hfix.
  apply preprocess_items_inv in Hd as (ai & al & b & s & Hi & Hl & Hb & Hs & E).
  rewrite (preprocess_items_eval d1 (astype ai dt_int32) (astype al dt_int32) b s).
  - rewrite Hfix, !astype_int32_twice. f_equal. subst d1.
    apply map_eq. intros k.
    destruct (decide (k = "position_ids")) as [->|Hp];
      [rewrite !lookup_insert_eq; reflexivity|].
    rewrite !(lookup_insert_ne _ "position_ids") by congruence.
    destruct (decide (k = "labels")) as [->|Hlab];
      [rewrite !lookup_insert_eq; reflexivity|].
    rewrite !(lookup_insert_ne _ "labels") by congruence.
    destruct (decide (k = "input_ids")) as [->|Hids];
      [rewrite !lookup_insert_eq; reflexivity|].
    repeat (rewrite lookup_insert_ne by congruence). reflexivity.
  - rewrite Hfix, E. rewrite !lookup_insert_ne by done.
    apply lookup_insert_eq.
  - rewrite Hfix, E. rewrite lookup_insert_ne by done.
    apply lookup_insert_eq.
  - exact Hb.
  - exact Hs.
Qed.

End PreprocessProofs.

Section PreprocessClaims.
Context {F : Type} {J : Jax F} {C : Collaborators F}.

Lemma to_jax_as_array (v : tensor) :
  to_jax v = JaxArray (tensor_array (to_jax v)).
Proof. destruct v; reflexivity. Qed.






(** C7: on a batch dict in canonical form, preprocessing the result of
    [_preprocess_batch] again returns a dict with the same contents; when
    the first call raises (the ids have fewer than two dimensions), so do
    the two calls in sequence. *)
Theorem preprocess_batch_idempotent (w : World) (l : loc) (d : dict) :
  heap w !! l = Some d →
  canonical d →
  match _preprocess_batch l w with
  | (w1, Ok l1) =>
      ∃ (w2 : World) (l2 : loc) (d1 : dict),
        _preprocess_batch l1 w1 = (w2, Ok l2)
        ∧ heap w1 !! l1 = Some d1
        ∧ heap w2 !! l2 = Some d1
  | (w1, Raise e) =>
      e = IndexError
      ∧ (_preprocess_batch l ≫= _preprocess_batch) w = (w1, Raise e)
  end.
Proof.
  intros Hl (Hjax & (ai & Hi & Hdi) & (al & Hlab & Hdl) & Hpos).
  destruct (preprocess_run l d w Hl) as (d'' & Hrun & Hd'').
  rewrite bind_run. rewrite Hrun.
  destruct (preprocess_items d) as [d1|e] eqn:Hitems; simpl.
  - specialize (Hd'' _ eq_refl). subst d''.
    set (w1 := with_heap w _).
    assert (Hl1 : heap w1 !! fresh (dom (heap w)) = Some d1)
      by apply lookup_insert_eq.
    destruct (preprocess_run _ d1 w1 Hl1) as (d2 & Hrun2 & Hd2).
    rewrite (preprocess_items_twice d d1 Hitems) in Hrun2, Hd2.
    specialize (Hd2 _ eq_refl). subst d2.
    eexists _, _, d1. split; [exact Hrun2|]. split; [exact Hl1|].
    apply lookup_insert_eq.
  - split; [|reflexivity].
    revert Hitems. unfold preprocess_items, dict_getitem.
    rewrite (to_jax_fixed d Hjax), Hi. simpl.
    rewrite lookup_insert_ne by done. rewrite Hlab. simpl.
    rewrite lookup_insert_ne by done. rewrite lookup_insert_eq. simpl.
    unfold shape_at. simpl.
    destruct (nd_shape ai !! 1%nat); simpl; [|congruence].
    destruct (nd_shape ai !! 0%nat); simpl; [discriminate | congruence].
Qed.

End PreprocessClaims.


Example preprocess_sample :
  let J := Sample.jax32 in
  match _preprocess_batch 1 (Sample.world_with Sample.torch_batch) with
  | (w', Ok l') =>
      heap w' !! l'
      = Some {[ "input_ids" := JaxArray (NdArray dt_int32 [2; 3]%nat [5; 6; 7; 8; 9; 10]);
                "labels" := JaxArray (NdArray dt_int32 [2; 3]%nat [0; 0; 0; 0; 0; 0]);
                "attention_mask" := JaxArray (NdArray dt_int32 [2; 3]%nat [1; 1; 1; 1; 1; 0]);
                "position_ids" := JaxArray (NdArray dt_int32 [2; 3]%nat [0; 1; 2; 0; 1; 2]) ]}
  | _ => False
  end.
Proof. vm_compute. reflexivity. Qed.

Lemma canonical_sample : canonical Sample.canonical_batch.
Proof.
  split; [|split; [|split]].
  - intros k v Hk. unfold Sample.canonical_batch in Hk.
    repeat (apply lookup_insert_Some in Hk as [[_ <-]|[_ Hk]];
            [reflexivity|]).
    apply lookup_singleton_Some in Hk as [_ <-]. reflexivity.
  - eexists. split; reflexivity.
  - eexists. split; reflexivity.
  - eexists. reflexivity.
Defined.

Lemma preprocess_batch_idempotent_witness :
  let J := Sample.jax32 in
  let w := Sample.world_with Sample.canonical_batch in
  let l := 1%positive in
  let d := Sample.canonical_batch in
  (heap w !! l = Some d ∧ canonical d)
  ∧ match _preprocess_batch l w with
    | (w1, Ok l1) =>
        ∃ (w2 : World) (l2 : loc) (d1 : dict),
          _preprocess_batch l1 w1 = (w2, Ok l2)
          ∧ heap w1 !! l1 = Some d1
          ∧ heap w2 !! l2 = Some d1
    | (w1, Raise e) =>
        e = IndexError
        ∧ (_preprocess_batch l ≫= _preprocess_batch) w = (w1, Raise e)
    end.
Proof.
  intros J w l d.
  assert (H1 : heap w !! l = Some d) by reflexivity.
  split; [split; [exact H1 | exact canonical_sample]|].
  exact (preprocess_batch_idempotent w l d H1 canonical_sample).
Defined.

(** ** [Trainer.forward] *)




Section ForwardProofs.
Context {F : Type} {J : Jax F} {C : Collaborators F}.


End ForwardProofs.

(** ** [Trainer.train] *)

Section TrainProofs.
Context {F : Type} {J : Jax F} {C : Collaborators F}.





Lemma astype_shape (a : ndarray) (dt : dtype) :
  nd_shape (astype a dt) = nd_shape a.
Proof. reflexivity. Qed.











End TrainProofs.

(** ** Readings of the run *)

Section TraceReadings.
Context {F : Type} {J : Jax F} {C : Collaborators F}.





Section Iterations.
Variables (ck : bool) (cfg : ModelConfig) (ms : Static).




End Iterations.





End TraceReadings.

(** ** Properties of [Trainer.train] *)

Section TrainClaims.
Context {F : Type} {J : Jax F} {C : Collaborators F}.





(** C9: with a checkpointer configured and a training data loader that
    yields no batch, [train] raises [UnboundLocalError] for the loop
    variable [step] when it builds the final checkpoint call; it has then
    called nothing and printed nothing: no checkpoint is saved and the
    export is not reached. *)
Theorem train_empty_loader_raises (trainer_config : TrainerConfig)
    (val_dataloader : list dict) (mesh : Mesh) (c : Checkpointer)
    (model : Params * Static) (model_config : ModelConfig)
    (opt_state : OptState) (w : World) :
  train {| trainer_config := trainer_config; train_dataloader := [];
           val_dataloader := val_dataloader; mesh := mesh;
           checkpointer := Some c; model := model;
           model_config := model_config; opt_state := opt_state |} w
  = (w, Raise (UnboundLocalError "step")).
Proof. destruct model as [model_params model_static]. reflexivity. Qed.


End TrainClaims.

(** ** Sample runs *)






Example train_negative_cap_run :
  let J := Sample.jax32 in
  let self := Sample.trainer (Some (-1)) [Sample.torch_batch] None in
  trace (train self Sample.empty_world).1
  = [Print MsgTrainingCompleted;
     SaveModelToHF Sample.tiny_model tt "/mnt/persistent-disk/hf_export" "tiny";
     Print (MsgHFSaved "/mnt/persistent-disk/hf_export")].
Proof. vm_compute. reflexivity. Qed.


(** The end-to-end scenario of the specification: two batches, cap 2. *)
Example checkpoint_calls_two_steps :
  let J := Sample.jax32 in
  let self :=
    Sample.trainer (Some 2) [Sample.torch_batch; Sample.canonical_batch]
                   (Some Sample.checkpoints) in
  checkpoint_calls (trace (train self Sample.empty_world).1)
  = [CallSave 1; CallSave 2; CallSave 2; CallWait; CallExport].
Proof. vm_compute. reflexivity. Qed.

(** When the cap stops the loop, the final checkpoint is tagged n + 1. *)
Example checkpoint_calls_capped :
  let J := Sample.jax32 in
  let self :=
    Sample.trainer (Some 2)
      [Sample.torch_batch; Sample.canonical_batch; Sample.torch_batch]
      (Some Sample.checkpoints) in
  checkpoint_calls (trace (train self Sample.empty_world).1)
  = [CallSave 1; CallSave 2; CallSave 3; CallWait; CallExport].
Proof. vm_compute. reflexivity. Qed.


Example metrics_prints_three_steps :
  let J := Sample.jax32 in
  let self :=
    Sample.trainer None
      [Sample.torch_batch; Sample.canonical_batch; Sample.torch_batch] None in
  omap (λ e, match e with
             | Print (MsgStep k _ _) => Some (inl k)
             | TrainingStep _ _ _ => Some (inr tt)
             | _ => None
             end)
       (trace (train self Sample.empty_world).1)
  = [inr tt; inl 1; inr tt; inl 2; inr tt].
Proof. vm_compute. reflexivity. Qed.


Example forward_sample :
  let J := Sample.jax32 in
  let C := tiny_collaborators in
  let batch : dict :=
    {[ "input_ids" := JaxArray (NdArray dt_int32 [2; 3]%nat [5; 6; 7; 8; 9; 10]);
       "labels" := JaxArray (NdArray dt_int32 [2; 3]%nat [0; 0; 0; 0; 0; 0]);
       "attention_mask" := JaxArray (NdArray dt_int32 [2; 3]%nat [1; 1; 1; 1; 1; 0]) ]} in
  forward (tt : Params) (tt : Static) batch
  = Ok (S754_zero true, Binary32.one).
Proof. vm_compute. reflexivity. Qed.

(** ** More on [_cross_entropy_loss_and_accuracy] *)

Section LossMore.
Context {F : Type} `{Jax F}.

(** X1: the loss and the accuracy read logits and tokens only where the
    mask is positive: two inputs of the same shapes that agree on every
    position with a positive mask entry give the same result. *)
Theorem masked_positions_irrelevant (b s v v' : nat)
    (logits logits' : list (list (list F))) (tokens tokens' : list (list Z))
    (mask : option (list (list Z))) :
  has_shape3 b s v logits →
  has_shape3 b s v' logits' →
  has_shape2 b s tokens →
  has_shape2 b s tokens' →
  (∀ m, mask = Some m → has_shape2 b s m) →
  (∀ r i, (r < b)%nat → (i < s)%nat →
          f32_gt (mask_at mask r i) f32_zero = true →
          logits_at logits' r i = logits_at logits r i
          ∧ token_at tokens' r i = token_at tokens r i) →
  _cross_entropy_loss_and_accuracy logits' tokens' mask
  = _cross_entropy_loss_and_accuracy logits tokens mask.
Proof.
  intros Hl Hl' Ht Ht' Hm Hsame.
  unfold _cross_entropy_loss_and_accuracy.
  rewrite (sequence_terms_formula b s v logits tokens mask Hl Ht Hm).
  rewrite (sequence_terms_formula b s v' logits' tokens' mask Hl' Ht' Hm).
  assert (Hterms : ∀ r, (r < b)%nat →
            loss_term s logits' tokens' mask r
            = loss_term s logits tokens mask r
            ∧ accuracy_term s logits' tokens' mask r
              = accuracy_term s logits tokens mask r).
  { intros r Hr. unfold loss_term, accuracy_term, seq_log_prob, seq_correct.
    split.
    - f_equal. f_equal. apply map_seq_ext. intros i Hi.
      destruct (f32_gt (mask_at mask r i) f32_zero) eqn:Hpos; [|reflexivity].
      destruct (Hsame r i Hr Hi Hpos) as [-> ->]. reflexivity.
    - f_equal. f_equal. f_equal. f_equal.
      apply List.filter_ext_in. intros i Hi. apply in_seq in Hi.
      destruct (f32_gt (mask_at mask r i) f32_zero) eqn:Hpos; [|reflexivity].
      destruct (Hsame r i Hr ltac:(lia) Hpos) as [-> ->]. reflexivity. }
  rewrite (tabulate_ext (loss_term s logits' tokens' mask)
             (loss_term s logits tokens mask) b)
    by (intros r Hr; apply Hterms, Hr).
  rewrite (tabulate_ext (accuracy_term s logits' tokens' mask)
             (accuracy_term s logits tokens mask) b)
    by (intros r Hr; apply Hterms, Hr).
  reflexivity.
Qed.

(** X2: an explicit mask of integer ones of the tokens' shape gives the
    same loss and accuracy as no mask, given that the cast of 1 is 1.0. *)
Theorem ones_mask_same_as_none (b s : nat) (logits : list (list (list F)))
    (tokens : list (list Z)) :
  f32_of_Z 1 = f32_one →
  has_shape2 b s tokens →
  _cross_entropy_loss_and_accuracy logits tokens
    (Some (replicate b (replicate s 1)))
  = _cross_entropy_loss_and_accuracy logits tokens None.
Proof.
  intros Hone Ht.
  unfold _cross_entropy_loss_and_accuracy, sequence_terms.
  rewrite (default_mask_ones b s tokens Ht).
  unfold float_mask.
  replace (map (map f32_of_Z) (replicate b (replicate s 1)))
    with (replicate b (replicate s f32_one)); [reflexivity|].
  rewrite <- Hone. clear.
  induction b as [|b IH]; simpl; [reflexivity|]. f_equal; [|exact IH].
  clear. induction s as [|s IH]; simpl; [reflexivity|]. f_equal. exact IH.
Qed.

End LossMore.

(** X3: on an empty batch both means are 0/0: in binary32 the function
    returns NaN for the loss and for the accuracy; the 1e-10 floor guards
    the per-sequence division only. *)
Theorem cross_entropy_empty_batch_nan (x64 : bool)
    (lsm : list spec_float → list spec_float) :
  let J := Binary32.jax x64 lsm in
  _cross_entropy_loss_and_accuracy [] [] None = (S754_nan, S754_nan)
  ∧ _cross_entropy_loss_and_accuracy [] [] (Some []) = (S754_nan, S754_nan).
Proof. split; reflexivity. Qed.

Lemma ones_mask_same_as_none_witness :
  let J := Sample.jax32 in
  let x := Binary32.one in
  let logits := [[[x]; [x]]; [[x]; [x]]] in
  let tokens := [[0; 0]; [0; 0]] in
  (f32_of_Z 1 = f32_one ∧ has_shape2 2 2 tokens)
  ∧ _cross_entropy_loss_and_accuracy logits tokens
      (Some (replicate 2 (replicate 2 1)))
    = _cross_entropy_loss_and_accuracy logits tokens None.
Proof.
  intros J x logits tokens.
  assert (H1 : f32_of_Z 1 = f32_one) by (vm_compute; reflexivity).
  assert (H2 : has_shape2 2 2 tokens)
    by (split; [reflexivity | repeat constructor]).
  split; [split; assumption|].
  exact (ones_mask_same_as_none 2 2 logits tokens H1 H2).
Defined.

Lemma masked_positions_irrelevant_witness :
  let J := Sample.jax32 in
  let x := Binary32.one in
  let logits := [[[x]; [x]]; [[x]; [x]]] in
  let logits' := [[[x]; [S754_nan]]; [[x]; [x]]] in
  let tokens := [[0; 0]; [0; 0]] in
  let tokens' := [[0; 7]; [0; 0]] in
  let mask := Some [[1; 0]; [1; 1]] in
  (has_shape3 2 2 1 logits
   ∧ has_shape3 2 2 1 logits'
   ∧ has_shape2 2 2 tokens
   ∧ has_shape2 2 2 tokens'
   ∧ (∀ m, mask = Some m → has_shape2 2 2 m)
   ∧ (∀ r i, (r < 2)%nat → (i < 2)%nat →
             f32_gt (mask_at mask r i) f32_zero = true →
             logits_at logits' r i = logits_at logits r i
             ∧ token_at tokens' r i = token_at tokens r i))
  ∧ _cross_entropy_loss_and_accuracy logits' tokens' mask
    = _cross_entropy_loss_and_accuracy logits tokens mask.
Proof.
  intros J x logits logits' tokens tokens' mask.
  assert (H1 : has_shape3 2 2 1 logits)
    by (split; [reflexivity | repeat constructor]).
  assert (H2 : has_shape3 2 2 1 logits')
    by (split; [reflexivity | repeat constructor]).
  assert (H3 : has_shape2 2 2 tokens)
    by (split; [reflexivity | repeat constructor]).
  assert (H4 : has_shape2 2 2 tokens')
    by (split; [reflexivity | repeat constructor]).
  assert (H5 : ∀ m, mask = Some m → has_shape2 2 2 m)
    by (intros m [= <-]; split; [reflexivity | repeat constructor]).
  assert (H6 : ∀ r i, (r < 2)%nat → (i < 2)%nat →
                 f32_gt (mask_at mask r i) f32_zero = true →
                 logits_at logits' r i = logits_at logits r i
                 ∧ token_at tokens' r i = token_at tokens r i).
  { intros [|[|r]] [|[|i]] Hr Hi Hpos; try lia;
      try (split; reflexivity).
    vm_compute in Hpos. discriminate. }
  split; [auto 10|].
  exact (masked_positions_irrelevant 2 2 1 1 logits logits' tokens tokens'
           mask H1 H2 H3 H4 H5 H6).
Defined.

(** ** More on [_preprocess_batch] *)

Lemma wrap64_fits (z : Z) : int32_range z → wrap 64 z = z.
Proof.
  unfold int32_range, wrap. intros Hz.
  change (2 ^ (64 - 1)) with 9223372036854775808.
  change (2 ^ 64) with 18446744073709551616.
  change (2 ^ 31) with 2147483648 in Hz.
  rewrite Z.mod_small by lia. lia.
Qed.

Lemma map_fits (f : Z → Z) (l : list Z) :
  (∀ z, int32_range z → f z = z) → Forall int32_range l → map f l = l.
Proof.
  intros Hf Hl. induction Hl as [|z l Hz _ IH]; simpl; [reflexivity|].
  rewrite (Hf z Hz), IH. reflexivity.
Qed.

Section PreprocessMore.
Context {F : Type} {J : Jax F} {C : Collaborators F}.

(** Integer data that fits 32 bits comes through the conversion to a JAX
    array and the cast to int32 unchanged. *)
Lemma int32_data_preserved (v : tensor) :
  nd_dtype (tensor_array v) ≠ dt_bool →
  Forall int32_range (nd_data (tensor_array v)) →
  nd_data (astype (tensor_array (to_jax v)) dt_int32)
  = nd_data (tensor_array v).
Proof.
  intros Hdt Hdata. destruct v as [a|a]; cbn [to_jax tensor_array] in *.
  - unfold jnp_array, astype. cbn [nd_data].
    rewrite List.map_map. apply map_fits; [|exact Hdata].
    intros z Hz. unfold canonical_dtype.
    destruct (nd_dtype a); [congruence | |].
    + cbn [cast_to]. rewrite (wrap_fits z Hz). apply wrap_fits, Hz.
    + destruct jax_enable_x64; cbn [cast_to].
      * rewrite (wrap64_fits z Hz). apply wrap_fits, Hz.
      * rewrite (wrap_fits z Hz). apply wrap_fits, Hz.
  - unfold astype. cbn [nd_data]. apply map_fits; [|exact Hdata].
    intros z Hz. apply wrap_fits, Hz.
Qed.

(** The outcome of [preprocess_items], case by case. *)
Lemma preprocess_items_outcome (d : dict) :
  match d !! "input_ids", d !! "labels" with
  | None, _ => preprocess_items d = Raise (KeyError "input_ids")
  | Some _, None => preprocess_items d = Raise (KeyError "labels")
  | Some vi, Some vl =>
      if (rank_of vi <? 2)%nat
      then preprocess_items d = Raise IndexError
      else ∃ b s,
             nd_shape (tensor_array vi) !! 0%nat = Some b
             ∧ nd_shape (tensor_array vi) !! 1%nat = Some s
             ∧ preprocess_items d
               = Ok (<["position_ids" := position_ids_of b s]>
                       (<["labels" :=
                            JaxArray (astype (tensor_array (to_jax vl))
                                             dt_int32)]>
                          (<["input_ids" :=
                               JaxArray (astype (tensor_array (to_jax vi))
                                                dt_int32)]>
                             (to_jax <$> d))))
  end.
Proof.
  destruct (d !! "input_ids") as [vi|] eqn:Hi.
  - assert (Hi' : (to_jax <$> d) !! "input_ids"
                  = Some (JaxArray (tensor_array (to_jax vi)))).
    { rewrite lookup_fmap, Hi. simpl. f_equal. apply to_jax_as_array. }
    destruct (d !! "labels") as [vl|] eqn:Hl.
    + assert (Hl' : (to_jax <$> d) !! "labels"
                    = Some (JaxArray (tensor_array (to_jax vl)))).
      { rewrite lookup_fmap, Hl. simpl. f_equal. apply to_jax_as_array. }
      unfold rank_of.
      destruct (nd_shape (tensor_array vi)) as [|b [|s rest]] eqn:Hshape;
        cbn [length Nat.ltb Nat.leb].
      * unfold preprocess_items, dict_getitem. rewrite Hi'.
        rewrite !result_bind_ok. cbn [tensor_astype]. rewrite result_bind_ok.
        rewrite lookup_insert_ne by done. rewrite Hl'.
        rewrite !result_bind_ok. cbn [tensor_astype]. rewrite result_bind_ok.
        rewrite lookup_insert_ne by done. rewrite lookup_insert_eq.
        rewrite result_bind_ok. unfold shape_at.
        cbn [tensor_array astype nd_shape]. rewrite to_jax_shape, Hshape.
        reflexivity.
      * unfold preprocess_items, dict_getitem. rewrite Hi'.
        rewrite !result_bind_ok. cbn [tensor_astype]. rewrite result_bind_ok.
        rewrite lookup_insert_ne by done. rewrite Hl'.
        rewrite !result_bind_ok. cbn [tensor_astype]. rewrite result_bind_ok.
        rewrite lookup_insert_ne by done. rewrite lookup_insert_eq.
        rewrite result_bind_ok. unfold shape_at.
        cbn [tensor_array astype nd_shape]. rewrite to_jax_shape, Hshape.
        reflexivity.
      * exists b, s. split; [reflexivity|]. split; [reflexivity|].
        apply preprocess_items_eval; try assumption.
        -- rewrite to_jax_shape, Hshape. reflexivity.
        -- rewrite to_jax_shape, Hshape. reflexivity.
    + unfold preprocess_items, dict_getitem. rewrite Hi'.
      rewrite !result_bind_ok. cbn [tensor_astype]. rewrite result_bind_ok.
      rewrite lookup_insert_ne by done. rewrite lookup_fmap, Hl. reflexivity.
  - unfold preprocess_items, dict_getitem. rewrite lookup_fmap, Hi.
    reflexivity.
Qed.

(** X4: the outcome of [_preprocess_batch], case by case: without
    "input_ids" it raises [KeyError] for that key; with "input_ids" but
    without "labels" it raises [KeyError] for "labels"; with both and ids
    of fewer than two dimensions it raises [IndexError]; otherwise it
    returns a dict that did not exist before.  In every case the trace
    and every dict that existed before are unchanged. *)
Theorem preprocess_batch_outcome (w : World) (l : loc) (d : dict) :
  heap w !! l = Some d →
  ∃ w',
    _preprocess_batch l w
    = (w',
       match d !! "input_ids", d !! "labels" with
       | None, _ => Raise (KeyError "input_ids")
       | Some _, None => Raise (KeyError "labels")
       | Some vi, Some _ =>
           if (rank_of vi <? 2)%nat then Raise IndexError
           else Ok (fresh (dom (heap w)))
       end)
    ∧ trace w' = trace w
    ∧ (∀ l0 d0, heap w !! l0 = Some d0 → heap w' !! l0 = Some d0).
Proof.
  intros Hl.
  destruct (preprocess_run l d w Hl) as (d'' & Hrun & _).
  pose proof (fresh_loc_unused w) as Hfresh.
  exists (with_heap w (<[fresh (dom (heap w)) := d'']> (heap w))).
  split; [|split; [reflexivity|]].
  - rewrite Hrun. f_equal.
    pose proof (preprocess_items_outcome d) as Hout.
    destruct (d !! "input_ids") as [vi|]; [|rewrite Hout; reflexivity].
    destruct (d !! "labels") as [vl|]; [|rewrite Hout; reflexivity].
    destruct (rank_of vi <? 2)%nat; [rewrite Hout; reflexivity|].
    destruct Hout as (b & s & _ & _ & ->). reflexivity.
  - intros l0 d0 Hl0. cbn [with_heap heap].
    rewrite lookup_insert_ne; [exact Hl0|]. intros <-. congruence.
Qed.

(** X5: token ids and labels that are 32- or 64-bit integers within the
    int32 range come out of [_preprocess_batch] with the values they had:
    the conversion and the cast change no element. *)
Theorem preprocess_batch_keeps_values (w : World) (l : loc) (d : dict)
    (key : string) (vi vl v : tensor) :
  heap w !! l = Some d →
  d !! "input_ids" = Some vi →
  d !! "labels" = Some vl →
  (2 ≤ rank_of vi)%nat →
  (key = "input_ids" ∨ key = "labels")%string →
  d !! key = Some v →
  nd_dtype (tensor_array v) ≠ dt_bool →
  Forall int32_range (nd_data (tensor_array v)) →
  ∃ w' l' d' a,
    _preprocess_batch l w = (w', Ok l')
    ∧ heap w' !! l' = Some d'
    ∧ d' !! key = Some (JaxArray a)
    ∧ nd_dtype a = dt_int32
    ∧ nd_shape a = nd_shape (tensor_array v)
    ∧ nd_data a = nd_data (tensor_array v).
Proof.
  intros Hl Hi Hlab Hrank Hkey Hv Hdt Hdata.
  destruct (preprocess_run l d w Hl) as (d'' & Hrun & Hd'').
  pose proof (preprocess_items_outcome d) as Hout.
  rewrite Hi, Hlab in Hout.
  replace (rank_of vi <? 2)%nat with false in Hout
    by (symmetry; apply Nat.ltb_ge; exact Hrank).
  destruct Hout as (b & s & _ & _ & Hitems).
  rewrite Hitems in Hrun. specialize (Hd'' _ Hitems). subst d''.
  eexists _, _, _, (astype (tensor_array (to_jax v)) dt_int32).
  split; [exact Hrun|]. split; [apply lookup_insert_eq|].
  split; [|split; [reflexivity|split]].
  - destruct Hkey as [-> | ->].
    + rewrite Hi in Hv. injection Hv as <-.
      rewrite !lookup_insert_ne by done. apply lookup_insert_eq.
    + rewrite Hlab in Hv. injection Hv as <-.
      rewrite lookup_insert_ne by done. apply lookup_insert_eq.
  - cbn [astype nd_shape]. apply to_jax_shape.
  - apply int32_data_preserved; assumption.
Qed.

(** X6: [_preprocess_batch] never reads the caller's "position_ids": a
    dict and the same dict with any "position_ids" entry put in give the
    same outcome, the same exception or dicts with the same contents. *)
Theorem preprocess_batch_ignores_position_ids (w1 w2 : World) (l1 l2 : loc)
    (d : dict) (p : tensor) :
  heap w1 !! l1 = Some d →
  heap w2 !! l2 = Some (<["position_ids" := p]> d) →
  match _preprocess_batch l1 w1, _preprocess_batch l2 w2 with
  | (w1', Ok l1'), (w2', Ok l2') =>
      is_Some (heap w1' !! l1') ∧ heap w1' !! l1' = heap w2' !! l2'
  | (_, Raise e1), (_, Raise e2) => e1 = e2
  | _, _ => False
  end.
Proof.
  intros H1 H2.
  destruct (preprocess_run l1 d w1 H1) as (d1 & Hrun1 & Hd1).
  destruct (preprocess_run l2 _ w2 H2) as (d2 & Hrun2 & Hd2).
  rewrite Hrun1, Hrun2.
  assert (Hsame : preprocess_items (<["position_ids" := p]> d)
                  = preprocess_items d).
  { pose proof (preprocess_items_outcome d) as Ha.
    pose proof (preprocess_items_outcome (<["position_ids" := p]> d)) as Hb.
    rewrite !lookup_insert_ne in Hb by done.
    destruct (d !! "input_ids") as [vi|]; [|congruence].
    destruct (d !! "labels") as [vl|]; [|congruence].
    destruct (rank_of vi <? 2)%nat; [congruence|].
    destruct Ha as (b & s & Hb0 & Hs0 & ->).
    destruct Hb as (b' & s' & Hb1 & Hs1 & ->).
    assert (b' = b) by congruence. assert (s' = s) by congruence.
    subst b' s'. f_equal. rewrite fmap_insert.
    apply map_eq. intros k.
    destruct (decide (k = "position_ids")) as [->|Hp];
      [rewrite !lookup_insert_eq; reflexivity|].
    rewrite !(lookup_insert_ne _ "position_ids") by congruence.
    destruct (decide (k = "labels")) as [->|Hlab];
      [rewrite !lookup_insert_eq; reflexivity|].
    rewrite !(lookup_insert_ne _ "labels") by congruence.
    destruct (decide (k = "input_ids")) as [->|Hids];
      [rewrite !lookup_insert_eq; reflexivity|].
    repeat (rewrite lookup_insert_ne by congruence). reflexivity. }
  rewrite Hsame in Hrun2, Hd2 |- *.
  destruct (preprocess_items d) as [d'|e]; cbn [fmap result_fmap].
  - rewrite (Hd1 d' eq_refl), (Hd2 d' eq_refl).
    cbn [with_heap heap]. rewrite !lookup_insert_eq. eauto.
  - reflexivity.
Qed.

End PreprocessMore.

(** ** [train] and its outcome function *)

Section Mirror.
Context {F : Type} {J : Jax F} {C : Collaborators F}.




End Mirror.

(** ** The outcome function on well-formed batches *)


Section OutcomeProofs.
Context {F : Type} {J : Jax F} {C : Collaborators F}.





End OutcomeProofs.

(** ** More on [Trainer.train] *)

Section TrainMore.
Context {F : Type} {J : Jax F} {C : Collaborators F}.










End TrainMore.

Section TrainAbort.
Context {F : Type} {J : Jax F} {C : Collaborators F}.




End TrainAbort.

(** ** [Trainer.forward] and [Trainer.__init__]: what they need *)


Section InitProofs.
Context {F : Type} {J : Jax F} {C : Collaborators F}.


(** X14: a mesh that [get_mesh] returns has as many devices as were
    asked for: the product of its shape is [num_tpus], and it names as
    many axes as the shape has. *)
Theorem get_mesh_uses_all_devices (num_tpus : Z) (w w' : World) (m : Mesh) :
  get_mesh num_tpus w = (w', Ok m) →
  fold_right Z.mul 1 (mesh_shape m) = num_tpus
  ∧ length (axis_names m) = length (mesh_shape m).
Proof.
  unfold get_mesh, mbind, M_bind, mret, M_ret, raise, print, emit.
  destruct (Z.eqb_spec num_tpus 4) as [->|H4]; cbn.
  - intros [= _ <-]. split; reflexivity.
  - destruct (Z.eqb_spec num_tpus 8) as [->|H8]; cbn.
    + intros [= _ <-]. split; reflexivity.
    + discriminate.
Qed.



End InitProofs.

(** ** More sample runs *)

Lemma preprocess_batch_outcome_witness :
  let J := Sample.jax32 in
  let d := Sample.torch_batch in
  let w := Sample.world_with d in
  let l := 1%positive in
  heap w !! l = Some d
  ∧ ∃ w',
      _preprocess_batch l w
      = (w',
         match d !! "input_ids", d !! "labels" with
         | None, _ => Raise (KeyError "input_ids")
         | Some _, None => Raise (KeyError "labels")
         | Some vi, Some _ =>
             if (rank_of vi <? 2)%nat then Raise IndexError
             else Ok (fresh (dom (heap w)))
         end)
      ∧ trace w' = trace w
      ∧ (∀ l0 d0, heap w !! l0 = Some d0 → heap w' !! l0 = Some d0).
Proof.
  intros J d w l.
  assert (H1 : heap w !! l = Some d) by reflexivity.
  split; [exact H1|].
  exact (preprocess_batch_outcome w l d H1).
Defined.

(** A batch without labels: the call raises and the store keeps the
    caller's dict. *)
Example preprocess_batch_missing_labels :
  let J := Sample.jax32 in
  let d : dict :=
    {[ "input_ids" := TorchTensor (NdArray dt_int64 [1; 2]%nat [3; 4]) ]} in
  (_preprocess_batch 1%positive (Sample.world_with d)).2
  = Raise (KeyError "labels").
Proof. vm_compute. reflexivity. Qed.

Lemma preprocess_batch_keeps_values_witness :
  let J := Sample.jax32 in
  let d := Sample.torch_batch in
  let w := Sample.world_with d in
  let l := 1%positive in
  let key := "input_ids"%string in
  let vi := TorchTensor (NdArray dt_int64 [2; 3]%nat [5; 6; 7; 8; 9; 10]) in
  let vl := TorchTensor (NdArray dt_int64 [2; 3]%nat [0; 0; 0; 0; 0; 0]) in
  (heap w !! l = Some d
   ∧ d !! "input_ids" = Some vi
   ∧ d !! "labels" = Some vl
   ∧ (2 ≤ rank_of vi)%nat
   ∧ (key = "input_ids" ∨ key = "labels")%string
   ∧ d !! key = Some vi
   ∧ nd_dtype (tensor_array vi) ≠ dt_bool
   ∧ Forall int32_range (nd_data (tensor_array vi)))
  ∧ ∃ w' l' d' a,
      _preprocess_batch l w = (w', Ok l')
      ∧ heap w' !! l' = Some d'
      ∧ d' !! key = Some (JaxArray a)
      ∧ nd_dtype a = dt_int32
      ∧ nd_shape a = nd_shape (tensor_array vi)
      ∧ nd_data a = nd_data (tensor_array vi).
Proof.
  intros J d w l key vi vl.
  assert (H1 : heap w !! l = Some d) by reflexivity.
  assert (H2 : d !! "input_ids" = Some vi) by reflexivity.
  assert (H3 : d !! "labels" = Some vl) by reflexivity.
  assert (H4 : (2 ≤ rank_of vi)%nat) by (vm_compute; lia).
  assert (H5 : (key = "input_ids" ∨ key = "labels")%string)
    by (left; reflexivity).
  assert (H6 : d !! key = Some vi) by reflexivity.
  assert (H7 : nd_dtype (tensor_array vi) ≠ dt_bool) by discriminate.
  assert (H8 : Forall int32_range (nd_data (tensor_array vi))).
  { unfold int32_range. cbn.
    repeat (apply Forall_cons; split; [lia|]). apply Forall_nil_2. }
  split; [auto 10|].
  exact (preprocess_batch_keeps_values w l d key vi vl vi
           H1 H2 H3 H4 H5 H6 H7 H8).
Defined.

Lemma preprocess_batch_ignores_position_ids_witness :
  let J := Sample.jax32 in
  let d := Sample.torch_batch in
  let p := JaxArray (NdArray dt_int32 [1]%nat [42]) in
  let w1 := Sample.world_with d in
  let w2 := Sample.world_with (<["position_ids" := p]> d) in
  let l := 1%positive in
  (heap w1 !! l = Some d
   ∧ heap w2 !! l = Some (<["position_ids" := p]> d))
  ∧ match _preprocess_batch l w1, _preprocess_batch l w2 with
    | (w1', Ok l1'), (w2', Ok l2') =>
        is_Some (heap w1' !! l1') ∧ heap w1' !! l1' = heap w2' !! l2'
    | (_, Raise e1), (_, Raise e2) => e1 = e2
    | _, _ => False
    end.
Proof.
  intros J d p w1 w2 l.
  assert (H1 : heap w1 !! l = Some d) by reflexivity.
  assert (H2 : heap w2 !! l = Some (<["position_ids" := p]> d))
    by reflexivity.
  split; [split; assumption|].
  exact (preprocess_batch_ignores_position_ids w1 w2 l l d p H1 H2).
Defined.








(** A run with an empty dict as second batch: one step, its checkpoint,
    its metrics, then the exception of the preprocessing. *)
Example train_abort_run :
  let J := Sample.jax32 in
  let self :=
    Sample.trainer None [Sample.torch_batch; ∅; Sample.canonical_batch]
                   (Some Sample.checkpoints) in
  let run := train self Sample.empty_world in
  run.2 = Raise (KeyError "input_ids")
  ∧ omap (λ e, match e with
               | Print (MsgStep k _ _) => Some (inl k)
               | TrainingStep _ _ _ => Some (inr 0)
               | SaveCheckpoint _ _ k => Some (inr k)
               | _ => None
               end)
         (trace run.1)
    = [inr 0; inr 1; inl 1].
Proof. vm_compute. split; reflexivity. Qed.

Lemma get_mesh_uses_all_devices_witness :
  let J := Sample.jax32 in
  let w := Sample.empty_world in
  let m := {| mesh_shape := [2; 2; 2];
              axis_names := ["batch"; "fsdp"; "mp"]%string |} in
  let w' : World :=
    {| heap := ∅; trace := [Print (MsgCreatingMesh [2; 2; 2])] |} in
  get_mesh 8 w = (w', Ok m)
  ∧ fold_right Z.mul 1 (mesh_shape m) = 8
  ∧ length (axis_names m) = length (mesh_shape m).
Proof.
  intros J w m w'.
  assert (H1 : get_mesh 8 w = (w', Ok m)) by reflexivity.
  split; [exact H1|].
  exact (get_mesh_uses_all_devices 8 w w' m H1).
Defined.


(** The constructor on an empty model name and an invalid device count:
    the assertion comes first. *)
Example trainer_init_empty_name :
  let J := Sample.jax32 in
  let C := tiny_collaborators in
  let cfg :=
    {| model_name := ""; param_dtype := "float32";
       output_dtype := "float32"; num_epochs := 1; num_steps := None;
       num_tpus := 3; base_dir := "/mnt/persistent-disk" |} in
  Trainer_init cfg [] [] None None Sample.empty_world
  = (Sample.empty_world, Raise (AssertionError "model_name must be provided")).
Proof. vm_compute. reflexivity. Qed.
